(** * Locks on editable objects (wagtail/locks.py)

    A shallow embedding of the lock classes of [wagtail/locks.py]
    ([BaseLock], [BasicLock], [WorkflowLock], [ScheduledForPublishLock])
    and the properties of their two methods, [for_user] and [get_message].

    Python values that the methods return are kept in a small value type,
    exceptions are explicit outcomes, and every method is a computation over
    the objects it can reach (the settings, the lock with its object, the
    user), so that "returns", "raises" and "leaves unchanged" can all be
    stated. *)

From Stdlib Require Import ZArith String Ascii List Bool.
From stdpp Require Import base option gmap strings.

Import ListNotations.
Local Open Scope string_scope.

(** ** Python values and outcomes *)

(** The values the two methods produce or test: [None], [NotImplemented],
    booleans, integers (settings may hold them) and text. *)
Inductive pyval : Type :=
  | PyNone
  | PyNotImplemented
  | PyBool (b : bool)
  | PyInt (n : Z)
  | PyStr (s : string).

(** Python truth value of a [pyval], as tested by [if]. *)
Definition truthy (v : pyval) : bool :=
  match v with
  | PyNone => false
  | PyNotImplemented => true
  | PyBool b => b
  | PyInt n => negb (n =? 0)%Z
  | PyStr s => negb (String.eqb s "")
  end.

Definition is_text_or_none (v : pyval) : bool :=
  match v with PyStr _ | PyNone => true | _ => false end.

(** Reading an attribute of [None] raises [AttributeError]; the name of the
    attribute is kept. *)
Inductive exn : Type :=
  | AttributeError (attr : string).

Inductive outcome (A : Type) : Type :=
  | Returns (a : A)
  | Raises (e : exn).
Arguments Returns {A} a.
Arguments Raises {A} e.

Definition returned {A} (r : outcome A) : bool :=
  match r with Returns _ => true | Raises _ => false end.

(** ** The host framework's data, as far as the locks read it *)

(** [datetime] values; only [strftime("%d %b %Y %H:%M")] is applied.
    The fields are those of a valid Python [datetime]: year 1..9999,
    month 1..12, day 1..31, hour 0..23, minute 0..59; the rendering below
    is meant for such values only. *)
Record datetime : Type := {
  year : nat;
  month : nat;
  day : nat;
  hour : nat;
  minute : nat
}.

Record User : Type := {
  pk : option Z;            (* None for an unsaved or anonymous user *)
  user_str : string         (* str(user) *)
}.

Record Revision : Type := {
  approved_go_live_at : option datetime;
  object_str : string
}.

Record TaskStatus : Type := {
  status_task_name : string;
  status : string
}.

Record WorkflowState : Type := {
  all_tasks_with_status : list TaskStatus;   (* all_tasks_with_status() *)
  workflow_name : string                     (* workflow.name *)
}.

(** The lockable object: the fields and framework methods that
    [locks.py] reads. *)
Record Object : Type := {
  instance_of_Page : bool;                   (* isinstance(object, Page) *)
  verbose_name : string;                     (* _meta.verbose_name *)
  admin_display_title : string;              (* get_admin_display_title() *)
  locked : bool;
  locked_by_id : option Z;
  locked_by : option User;
  locked_at : option datetime;
  scheduled_revision : option Revision;
  current_workflow_state : option WorkflowState
}.

(** Modelled from the spec: the workflow task class is not part of this
    module; a task carries its name and its own rule "is this page locked
    for this user", a yes/no decision on the page and the user. *)
Record Task : Type := {
  task_name : string;
  page_locked_for_user : Object -> User -> bool
}.

(** Django settings: a finite map from setting names to values;
    [getattr(settings, name, default)]. *)
Definition getattr_default (settings : gmap string pyval) (name : string)
    (default : pyval) : pyval :=
  match settings !! name with
  | Some v => v
  | None => default
  end.

(** ** Lock objects *)

(** The three lock variants with the attributes [__init__] stores:
    [object], [is_page], and for a workflow lock [task]. *)
Inductive Lock : Type :=
  | BasicLock (object : Object) (is_page : bool)
  | WorkflowLock (object : Object) (is_page : bool) (task : Task)
  | ScheduledForPublishLock (object : Object) (is_page : bool).

Definition lock_object (l : Lock) : Object :=
  match l with
  | BasicLock o _ | WorkflowLock o _ _ | ScheduledForPublishLock o _ => o
  end.

Definition lock_is_page (l : Lock) : bool :=
  match l with
  | BasicLock _ p | WorkflowLock _ p _ | ScheduledForPublishLock _ p => p
  end.

Definition lock_task (l : Lock) : option Task :=
  match l with
  | WorkflowLock _ _ t => Some t
  | _ => None
  end.

(** [BaseLock.__init__] and [WorkflowLock.__init__]. *)
Definition new_BasicLock (o : Object) : Lock :=
  BasicLock o (instance_of_Page o).

Definition new_WorkflowLock (o : Object) (t : Task) : Lock :=
  WorkflowLock o (instance_of_Page o) t.

Definition new_ScheduledForPublishLock (o : Object) : Lock :=
  ScheduledForPublishLock o (instance_of_Page o).

(** ** Computations over the reachable objects *)

(** Everything a method call can reach: the settings module, the lock
    ([self], with its object) and the user passed in. *)
Record World : Type := {
  w_settings : gmap string pyval;
  w_self : Lock;
  w_user : User
}.

Definition M (A : Type) : Type := World -> outcome A * World.

Definition ret {A} (a : A) : M A := fun w => (Returns a, w).

Definition raise {A} (e : exn) : M A := fun w => (Raises e, w).

Definition bind {A B} (m : M A) (k : A -> M B) : M B :=
  fun w =>
    match m w with
    | (Returns a, w') => k a w'
    | (Raises e, w') => (Raises e, w')
    end.

Definition gets {A} (f : World -> A) : M A := fun w => (Returns (f w), w).

Definition modify (f : World -> World) : M unit := fun w => (Returns tt, f w).

Declare Scope py_scope.
Delimit Scope py_scope with py.
Notation "x <- c1 ;; c2" := (bind c1 (fun x => c2))
  (at level 100, c1 at next level, right associativity) : py_scope.
Local Open Scope py_scope.

(** The value and the final world of a call [m] made on a lock [l] with
    argument [u] under settings [st]. *)
Definition call {A} (m : M A) (st : gmap string pyval) (l : Lock) (u : User)
    : outcome A :=
  fst (m {| w_settings := st; w_self := l; w_user := u |}).

Definition after {A} (m : M A) (st : gmap string pyval) (l : Lock) (u : User)
    : World :=
  snd (m {| w_settings := st; w_self := l; w_user := u |}).

(** [settings.NAME] with a default, [self.object], [self.is_page],
    [self.task] and the argument [user]. *)
Definition getattr_settings (name : string) (default : pyval) : M pyval :=
  gets (fun w => getattr_default (w_settings w) name default).

Definition self_object : M Object := gets (fun w => lock_object (w_self w)).

Definition self_is_page : M bool := gets (fun w => lock_is_page (w_self w)).

Definition self_task : M Task :=
  l <- gets w_self ;;
  match lock_task l with
  | Some t => ret t
  | None => raise (AttributeError "task")
  end.

Definition arg_user : M User := gets w_user.

(** [x.attr] where [x] may be [None]. *)
Definition attr_of {A B} (x : option A) (attr : string) (f : A -> B) : M B :=
  match x with
  | Some a => ret (f a)
  | None => raise (AttributeError attr)
  end.

(** ** Django helpers used to build the messages *)

Module Django.

(** [html.escape] on one character: & < > and the two quote characters. *)
Definition escape_char (c : ascii) : string :=
  if Ascii.eqb c "&"%char then "&amp;"
  else if Ascii.eqb c "<"%char then "&lt;"
  else if Ascii.eqb c ">"%char then "&gt;"
  else if Ascii.eqb c "034"%char then "&quot;"
  else if Ascii.eqb c "'"%char then "&#x27;"
  else String c "".

Fixpoint escape (s : string) : string :=
  match s with
  | "" => ""
  | String c s' => escape_char c ++ escape s'
  end.

Fixpoint lookup_kwarg (k : string) (kwargs : list (string * string)) : string :=
  match kwargs with
  | [] => ""
  | (k', v) :: rest => if String.eqb k k' then v else lookup_kwarg k rest
  end.

(** [template.format] with keyword arguments for templates whose replacement fields
    are plain names in braces; [field] is the name being read. *)
Fixpoint str_format (kwargs : list (string * string)) (template : string)
    (field : option string) : string :=
  match template with
  | "" => ""
  | String c rest =>
      match field with
      | None =>
          if Ascii.eqb c "{"%char then str_format kwargs rest (Some "")
          else String c (str_format kwargs rest None)
      | Some k =>
          if Ascii.eqb c "}"%char
          then lookup_kwarg k kwargs ++ str_format kwargs rest None
          else str_format kwargs rest (Some (k ++ String c ""))
      end
  end.

(** A pending call [format_html] of a template and keyword arguments. *)
Record html_call : Type := {
  template : string;
  kwargs : list (string * string)
}.

(** [format_html]: every argument is escaped, then the template is
    filled in; the result is marked safe. *)
Definition format_html (c : html_call) : string :=
  str_format (map (fun kv => (fst kv, escape (snd kv))) (kwargs c))
             (template c) None.

(** [gettext] with no translation catalogue active: the message id is
    its own translation. *)
Definition gettext (msgid : string) : string := msgid.

(** [mark_safe] only changes the class of the string. *)
Definition mark_safe (s : string) : string := s.

Definition upper_char (c : ascii) : ascii :=
  let n := nat_of_ascii c in
  if (97 <=? n)%nat && (n <=? 122)%nat then ascii_of_nat (n - 32) else c.

(** [capfirst]: the first character in upper case.  Strings here are
    sequences of bytes and only an ASCII letter a-z is changed: the model
    covers text whose first character is ASCII, and leaves a first
    character outside ASCII as it is, where Python would upper-case it. *)
Definition capfirst (s : string) : string :=
  match s with
  | "" => ""
  | String c rest => String (upper_char c) rest
  end.

Definition digit (n : nat) : string :=
  String (ascii_of_nat (48 + n mod 10)) "".

Definition two_digits (n : nat) : string := digit (n / 10) ++ digit n.

Definition four_digits (n : nat) : string :=
  digit (n / 1000) ++ digit (n / 100) ++ digit (n / 10) ++ digit n.

Definition month_abbr (m : nat) : string :=
  nth (m - 1)
    ["Jan"; "Feb"; "Mar"; "Apr"; "May"; "Jun";
     "Jul"; "Aug"; "Sep"; "Oct"; "Nov"; "Dec"] "".

(** The year as the platform's [%Y] prints it: in decimal, with no
    leading zeros (year 999 is printed with three digits). *)
Definition year_digits (n : nat) : string :=
  if (n <? 10)%nat then digit n
  else if (n <? 100)%nat then two_digits n
  else if (n <? 1000)%nat then digit (n / 100) ++ two_digits n
  else four_digits n.

(** [d.strftime("%d %b %Y %H:%M")], for a valid [datetime] in the C
    locale. *)
Definition strftime (d : datetime) : string :=
  two_digits (day d) ++ " " ++ month_abbr (month d) ++ " "
  ++ year_digits (year d) ++ " "
  ++ two_digits (hour d) ++ ":" ++ two_digits (minute d).

End Django.

Import Django.

(** ** BaseLock *)

(** [BaseLock.for_user]: the placeholder of the abstract class. *)
Definition BaseLock_for_user : M pyval := ret PyNotImplemented.

(** [BaseLock.get_message]. *)
Definition BaseLock_get_message : M pyval := ret PyNone.

(** ** BasicLock *)

Definition GLOBAL_PAGE_EDIT_LOCK : string := "WAGTAILADMIN_GLOBAL_PAGE_EDIT_LOCK".

(** [BasicLock.for_user]. *)
Definition BasicLock_for_user : M pyval :=
  flag <- getattr_settings GLOBAL_PAGE_EDIT_LOCK (PyBool false) ;;
  if truthy flag then ret (PyBool true)
  else
    u <- arg_user ;;
    o <- self_object ;;
    ret (PyBool (negb (bool_decide (pk u = locked_by_id o)))).

(** The four message templates of [BasicLock.get_message]. *)
Definition LOCKED_BY_YOU_AT : string :=
  "<b>Page '{page_title}' was locked</b> by <b>you</b> on <b>{datetime}</b>.".
Definition LOCKED_BY_YOU : string :=
  "<b>Page '{page_title}' is locked</b> by <b>you</b>.".
Definition LOCKED_BY_USER_AT : string :=
  "<b>Page '{page_title}' was locked</b> by <b>{user}</b> on <b>{datetime}</b>.".
Definition LOCKED_GENERIC : string :=
  "<b>Page '{page_title}' is locked</b>.".

(** The [format_html] call that [BasicLock.get_message] returns the result
    of: the branch taken fixes the template and its arguments. *)
Definition BasicLock_message_call : M html_call :=
  o <- self_object ;;
  u <- arg_user ;;
  if bool_decide (locked_by_id o = pk u) then
    match locked_at o with
    | Some t =>
        ret {| template := gettext LOCKED_BY_YOU_AT;
               kwargs := [("page_title", admin_display_title o);
                          ("datetime", strftime t)] |}
    | None =>
        ret {| template := gettext LOCKED_BY_YOU;
               kwargs := [("page_title", admin_display_title o)] |}
    end
  else
    match locked_by o, locked_at o with
    | Some who, Some t =>
        ret {| template := gettext LOCKED_BY_USER_AT;
               kwargs := [("page_title", admin_display_title o);
                          ("user", user_str who);
                          ("datetime", strftime t)] |}
    | _, _ =>
        (* Page was probably locked with an old version of Wagtail, or a script *)
        ret {| template := gettext LOCKED_GENERIC;
               kwargs := [("page_title", admin_display_title o)] |}
    end.

(** [BasicLock.get_message]. *)
Definition BasicLock_get_message : M pyval :=
  c <- BasicLock_message_call ;;
  ret (PyStr (format_html c)).

(** ** WorkflowLock *)

(** [WorkflowLock.for_user]. *)
Definition WorkflowLock_for_user : M pyval :=
  t <- self_task ;;
  o <- self_object ;;
  u <- arg_user ;;
  ret (PyBool (page_locked_for_user t o u)).

Definition AWAITING_MODERATION : string :=
  "This page is currently awaiting moderation.".
Definition AWAITING_TASK : string :=
  "This page is awaiting <b>'{task_name}'</b> in the <b>'{workflow_name}'</b> workflow.".
Definition ONLY_REVIEWERS : string :=
  "Only reviewers for this task can edit the page.".

(** [WorkflowLock.get_message]; falling off the end of the method returns
    [None]. *)
Definition WorkflowLock_get_message : M pyval :=
  applies <- WorkflowLock_for_user ;;
  if truthy applies then
    o <- self_object ;;
    tasks <- attr_of (current_workflow_state o) "all_tasks_with_status"
               all_tasks_with_status ;;
    workflow_info <-
      (if (length tasks =? 1)%nat then
         (* If only one task in workflow, show simple message *)
         ret (gettext AWAITING_MODERATION)
       else
         t <- self_task ;;
         o' <- self_object ;;
         wf <- attr_of (current_workflow_state o') "workflow" workflow_name ;;
         ret (format_html
                {| template := gettext AWAITING_TASK;
                   kwargs := [("task_name", task_name t);
                              ("workflow_name", wf)] |})) ;;
    ret (PyStr (mark_safe (workflow_info ++ " " ++ gettext ONLY_REVIEWERS)))
  else ret PyNone.

(** ** ScheduledForPublishLock *)

(** [ScheduledForPublishLock.for_user]. *)
Definition ScheduledForPublishLock_for_user : M pyval := ret (PyBool true).

Definition SCHEDULED_PAGE : string :=
  "Page '{page_title}' is locked and has been scheduled to go live at {datetime}".
Definition SCHEDULED_OBJECT : string :=
  "{model_name} '{title}' is locked and has been scheduled to go live at {datetime}".

(** [scheduled_revision.approved_go_live_at.strftime(...)]: both the
    revision and its go-live time may be [None]. *)
Definition go_live_text (r : option Revision) : M string :=
  live <- attr_of r "approved_go_live_at" approved_go_live_at ;;
  attr_of live "strftime" strftime.

(** [ScheduledForPublishLock.get_message]. *)
Definition ScheduledForPublishLock_get_message : M pyval :=
  o <- self_object ;;
  let scheduled := scheduled_revision o in
  is_page <- self_is_page ;;
  if is_page : bool then
    o' <- self_object ;;
    let page_title := admin_display_title o' in
    datetime <- go_live_text scheduled ;;
    ret (PyStr (format_html
                  {| template := gettext SCHEDULED_PAGE;
                     kwargs := [("page_title", page_title);
                                ("datetime", datetime)] |}))
  else
    o' <- self_object ;;
    let model_name := verbose_name o' in
    title <- attr_of scheduled "object_str" object_str ;;
    datetime <- go_live_text scheduled ;;
    let message :=
      format_html {| template := gettext SCHEDULED_OBJECT;
                     kwargs := [("model_name", model_name);
                                ("title", title);
                                ("datetime", datetime)] |} in
    ret (PyStr (mark_safe (capfirst message))).

(** ** Method dispatch on the class of [self] *)

Definition for_user : M pyval :=
  l <- gets w_self ;;
  match l with
  | BasicLock _ _ => BasicLock_for_user
  | WorkflowLock _ _ _ => WorkflowLock_for_user
  | ScheduledForPublishLock _ _ => ScheduledForPublishLock_for_user
  end.

Definition get_message : M pyval :=
  l <- gets w_self ;;
  match l with
  | BasicLock _ _ => BasicLock_get_message
  | WorkflowLock _ _ _ => WorkflowLock_get_message
  | ScheduledForPublishLock _ _ => ScheduledForPublishLock_get_message
  end.

(** ** Concrete objects used in the examples below *)

Module Samples.

Definition noon : datetime :=
  {| year := 2024; month := 3; day := 7; hour := 12; minute := 0 |}.

Definition alice : User := {| pk := Some 1%Z; user_str := "alice" |}.
Definition bob : User := {| pk := Some 2%Z; user_str := "bob" |}.
Definition anonymous : User := {| pk := None; user_str := "AnonymousUser" |}.

(** A page locked by alice. *)
Definition home : Object :=
  {| instance_of_Page := true;
     verbose_name := "page";
     admin_display_title := "Home";
     locked := true;
     locked_by_id := Some 1%Z;
     locked_by := Some alice;
     locked_at := Some noon;
     scheduled_revision := None;
     current_workflow_state := None |}.

(** A page locked by a script: nobody and no time recorded. *)
Definition legacy : Object :=
  {| instance_of_Page := true;
     verbose_name := "page";
     admin_display_title := "Old";
     locked := true;
     locked_by_id := None;
     locked_by := None;
     locked_at := None;
     scheduled_revision := None;
     current_workflow_state := None |}.

(** A page in a two-task workflow. *)
Definition in_review : Object :=
  {| instance_of_Page := true;
     verbose_name := "page";
     admin_display_title := "News";
     locked := false;
     locked_by_id := None;
     locked_by := None;
     locked_at := None;
     scheduled_revision := None;
     current_workflow_state :=
       Some {| all_tasks_with_status :=
                 [ {| status_task_name := "Legal"; status := "approved" |};
                   {| status_task_name := "Editors"; status := "in_progress" |} ];
               workflow_name := "Publishing" |} |}.

(** A task whose rule locks the page for everybody but alice. *)
Definition editors : Task :=
  {| task_name := "Editors";
     page_locked_for_user :=
       fun _ u => negb (bool_decide (pk u = Some 1%Z)) |}.

(** A snippet locked by the user with key 1, with nothing else recorded. *)
Definition advert : Object :=
  {| instance_of_Page := false;
     verbose_name := "advert";
     admin_display_title := "Sale";
     locked := true;
     locked_by_id := Some 1%Z;
     locked_by := None;
     locked_at := None;
     scheduled_revision := None;
     current_workflow_state := None |}.

(** Another user object with alice's key. *)
Definition namesake : User := {| pk := Some 1%Z; user_str := "a. n. other" |}.

Definition other_settings : gmap string pyval :=
  {[ "WAGTAIL_SITE_NAME" := PyStr "demo" ]}.

Definition lock_off : gmap string pyval := ∅.
Definition lock_on : gmap string pyval :=
  {[ GLOBAL_PAGE_EDIT_LOCK := PyBool true ]}.

End Samples.

(** ** Notions the statements use *)

(** The global lock setting is on when
    [getattr(settings, "WAGTAILADMIN_GLOBAL_PAGE_EDIT_LOCK", False)] is true
    for [if]. *)
Definition global_page_edit_lock (st : gmap string pyval) : bool :=
  truthy (getattr_default st GLOBAL_PAGE_EDIT_LOCK (PyBool false)).

(** The wording of a [BasicLock] message is the template it is built from:
    "locked by you" or the wording for anybody else. *)
Definition by_you_wording (c : html_call) : bool :=
  String.eqb (template c) LOCKED_BY_YOU_AT
  || String.eqb (template c) LOCKED_BY_YOU.

Definition third_party_wording (c : html_call) : bool :=
  String.eqb (template c) LOCKED_BY_USER_AT
  || String.eqb (template c) LOCKED_GENERIC.

(** Whether a message is built with the keyword argument [k]. *)
Definition uses_kwarg (k : string) (c : html_call) : bool :=
  existsb (fun kv => String.eqb k (fst kv)) (kwargs c).

Definition present {A} (x : option A) : bool :=
  match x with Some _ => true | None => false end.

(** The go-live time of the scheduled revision, when there is one. *)
Definition go_live_at (o : Object) : option datetime :=
  match scheduled_revision o with
  | Some r => approved_go_live_at r
  | None => None
  end.

(** What [get_message] needs and may find missing: nothing for a basic
    lock, the workflow state for a workflow lock, the go-live time of the
    scheduled revision for a scheduled-for-publish lock. *)
Definition missing_for_message (l : Lock) : bool :=
  match l with
  | BasicLock _ _ => false
  | WorkflowLock o _ _ => negb (present (current_workflow_state o))
  | ScheduledForPublishLock o _ => negb (present (go_live_at o))
  end.


(** ** Read-only computations *)

(** A computation is read-only when it hands back the world it was
    started in, whether it returns or raises. *)
Definition readonly {A} (m : M A) : Prop := forall w, snd (m w) = w.

(** ** Read-only computations: lemmas *)

Section Readonly.
Context {A B : Type}.

Lemma readonly_ret (a : A) : readonly (ret a).
Proof. intros w. reflexivity. Qed.

Lemma readonly_raise (e : exn) : readonly (@raise A e).
Proof. intros w. reflexivity. Qed.

Lemma readonly_gets (f : World -> A) : readonly (gets f).
Proof. intros w. reflexivity. Qed.

Lemma readonly_bind (m : M A) (k : A -> M B) :
  readonly m -> (forall a, readonly (k a)) -> readonly (bind m k).
Proof.
  intros Hm Hk w. unfold bind.
  specialize (Hm w). destruct (m w) as [[a | e] w']; simpl in Hm; subst w'.
  - apply Hk.
  - reflexivity.
Qed.

Lemma readonly_attr_of (x : option A) (attr : string) (f : A -> B) :
  readonly (attr_of x attr f).
Proof. destruct x; intros w; reflexivity. Qed.

Lemma readonly_if (b : bool) (m1 m2 : M A) :
  readonly m1 -> readonly m2 -> readonly (if b then m1 else m2).
Proof. destruct b; auto. Qed.

End Readonly.

Create HintDb readonly.
#[local] Hint Resolve readonly_ret readonly_raise readonly_gets
  readonly_attr_of readonly_if : readonly.

Ltac readonly_step :=
  first
    [ apply readonly_bind; [ | intro ]
    | apply readonly_if
    | match goal with
      | |- readonly (match ?x with _ => _ end) => destruct x
      end
    | solve [ auto with readonly ] ].

Ltac prove_readonly := repeat readonly_step.

(** A write is not read-only: the predicate does separate computations. *)
Lemma modify_not_readonly :
  ~ readonly (modify (fun w =>
       {| w_settings := w_settings w;
          w_self := w_self w;
          w_user := Samples.bob |})).
Proof.
  intros H.
  specialize (H {| w_settings := ∅;
                   w_self := new_BasicLock Samples.home;
                   w_user := Samples.alice |}).
  discriminate H.
Qed.

Lemma readonly_self_task : readonly self_task.
Proof. unfold self_task. prove_readonly. Qed.

Lemma readonly_BasicLock_for_user : readonly BasicLock_for_user.
Proof.
  unfold BasicLock_for_user, getattr_settings, arg_user, self_object.
  prove_readonly.
Qed.

Lemma readonly_BasicLock_message_call : readonly BasicLock_message_call.
Proof.
  unfold BasicLock_message_call, arg_user, self_object. prove_readonly.
Qed.

Lemma readonly_BasicLock_get_message : readonly BasicLock_get_message.
Proof.
  unfold BasicLock_get_message.
  apply readonly_bind; [ apply readonly_BasicLock_message_call | intro ].
  prove_readonly.
Qed.

Lemma readonly_WorkflowLock_for_user : readonly WorkflowLock_for_user.
Proof.
  unfold WorkflowLock_for_user, arg_user, self_object.
  apply readonly_bind; [ apply readonly_self_task | intro ].
  prove_readonly.
Qed.

Lemma readonly_WorkflowLock_get_message : readonly WorkflowLock_get_message.
Proof.
  unfold WorkflowLock_get_message, self_object.
  apply readonly_bind; [ apply readonly_WorkflowLock_for_user | intro ].
  apply readonly_if; [ | prove_readonly ].
  apply readonly_bind; [ prove_readonly | intro ].
  apply readonly_bind; [ prove_readonly | intro ].
  apply readonly_bind; [ | intro; prove_readonly ].
  apply readonly_if; [ prove_readonly | ].
  apply readonly_bind; [ apply readonly_self_task | intro ].
  prove_readonly.
Qed.

Lemma readonly_go_live_text (r : option Revision) : readonly (go_live_text r).
Proof. unfold go_live_text. prove_readonly. Qed.

Lemma readonly_ScheduledForPublishLock_for_user :
  readonly ScheduledForPublishLock_for_user.
Proof. unfold ScheduledForPublishLock_for_user. prove_readonly. Qed.

Lemma readonly_ScheduledForPublishLock_get_message :
  readonly ScheduledForPublishLock_get_message.
Proof.
  unfold ScheduledForPublishLock_get_message, self_object, self_is_page.
  apply readonly_bind; [ prove_readonly | intro ].
  apply readonly_bind; [ prove_readonly | intro ].
  apply readonly_if.
  - apply readonly_bind; [ prove_readonly | intro ].
    apply readonly_bind; [ apply readonly_go_live_text | intro ].
    prove_readonly.
  - apply readonly_bind; [ prove_readonly | intro ].
    apply readonly_bind; [ prove_readonly | intro ].
    apply readonly_bind; [ apply readonly_go_live_text | intro ].
    prove_readonly.
Qed.

Lemma readonly_for_user : readonly for_user.
Proof.
  unfold for_user.
  apply readonly_bind; [ prove_readonly | intros [ | | ] ].
  - apply readonly_BasicLock_for_user.
  - apply readonly_WorkflowLock_for_user.
  - apply readonly_ScheduledForPublishLock_for_user.
Qed.

Lemma readonly_get_message : readonly get_message.
Proof.
  unfold get_message.
  apply readonly_bind; [ prove_readonly | intros [ | | ] ].
  - apply readonly_BasicLock_get_message.
  - apply readonly_WorkflowLock_get_message.
  - apply readonly_ScheduledForPublishLock_get_message.
Qed.

(** C5: for every lock variant, every user and every settings object,
    neither [for_user] nor [get_message] changes anything it can reach:
    after the call the settings, the lock with its attributes and its
    object's fields, and the user are the ones the call started with. *)
Theorem lock_methods_change_nothing
    (st : gmap string pyval) (l : Lock) (u : User) :
  after for_user st l u = {| w_settings := st; w_self := l; w_user := u |}
  /\ after get_message st l u
     = {| w_settings := st; w_self := l; w_user := u |}.
Proof.
  unfold after. split.
  - apply readonly_for_user.
  - apply readonly_get_message.
Qed.

(** ** Evaluating the methods *)

(** Closes a conjunction of equivalences between outcomes that are all
    known: each side is either plainly true or plainly contradictory. *)
Ltac settle_cases :=
  repeat split; intros;
  repeat match goal with
         | H : _ /\ _ |- _ => destruct H
         | H : exists _, _ |- _ => destruct H
         end;
  try discriminate; try congruence; eauto.

Ltac run :=
  cbv [call after for_user get_message
       BasicLock_for_user BasicLock_message_call BasicLock_get_message
       WorkflowLock_for_user WorkflowLock_get_message
       ScheduledForPublishLock_for_user ScheduledForPublishLock_get_message
       go_live_text getattr_settings self_object self_is_page self_task
       arg_user attr_of bind ret raise gets fst snd
       lock_object lock_is_page lock_task w_settings w_self w_user truthy].

Lemma call_BasicLock_for_user st o ip u :
  call for_user st (BasicLock o ip) u
  = Returns (PyBool (global_page_edit_lock st
                     || negb (bool_decide (pk u = locked_by_id o)))).
Proof.
  unfold global_page_edit_lock. run.
  destruct (getattr_default st GLOBAL_PAGE_EDIT_LOCK (PyBool false)) as [ | | [] | n | s ];
    cbv [truthy]; try reflexivity.
  - destruct (negb (n =? 0)%Z); reflexivity.
  - destruct (negb (String.eqb s "")); reflexivity.
Qed.

Lemma call_WorkflowLock_for_user st o ip t u :
  call for_user st (WorkflowLock o ip t) u
  = Returns (PyBool (page_locked_for_user t o u)).
Proof. reflexivity. Qed.

Lemma call_BasicLock_get_message st o ip u :
  call get_message st (BasicLock o ip) u
  = match call BasicLock_message_call st (BasicLock o ip) u with
    | Returns c => Returns (PyStr (format_html c))
    | Raises e => Raises e
    end.
Proof.
  run. destruct (bool_decide (locked_by_id o = pk u));
    destruct (locked_by o); destruct (locked_at o); reflexivity.
Qed.

(** The template chosen by [BasicLock.get_message] follows the comparison
    of [locked_by_id] with [user.pk]. *)
Lemma BasicLock_message_call_wording st o ip u :
  exists c,
    call BasicLock_message_call st (BasicLock o ip) u = Returns c
    /\ by_you_wording c = bool_decide (pk u = locked_by_id o)
    /\ third_party_wording c = negb (bool_decide (pk u = locked_by_id o))
    /\ match locked_at o with
       | None => uses_kwarg "datetime" c = false
       | Some _ => True
       end
    /\ match locked_by o with
       | None => uses_kwarg "user" c = false
       | Some _ => True
       end.
Proof.
  run.
  rewrite (bool_decide_ext (locked_by_id o = pk u) (pk u = locked_by_id o))
    by (split; congruence).
  destruct (bool_decide (pk u = locked_by_id o));
    destruct (locked_by o); destruct (locked_at o);
    eexists; (split; [ reflexivity | ]);
    repeat split; reflexivity.
Qed.

(** What [WorkflowLock.get_message] does, case by case. *)
Lemma call_WorkflowLock_get_message st o ip t u :
  match page_locked_for_user t o u, current_workflow_state o with
  | false, _ =>
      call get_message st (WorkflowLock o ip t) u = Returns PyNone
  | true, Some _ =>
      exists s, call get_message st (WorkflowLock o ip t) u = Returns (PyStr s)
  | true, None =>
      call get_message st (WorkflowLock o ip t) u
      = Raises (AttributeError "all_tasks_with_status")
  end.
Proof.
  run.
  destruct (page_locked_for_user t o u); [ | reflexivity ].
  destruct (current_workflow_state o) as [ws | ] eqn:Hws; [ | reflexivity ].
  destruct (length (all_tasks_with_status ws) =? 1)%nat; run.
  - eexists; reflexivity.
  - rewrite Hws. eexists; reflexivity.
Qed.

(** What [ScheduledForPublishLock.get_message] does, case by case. *)
Lemma call_ScheduledForPublishLock_get_message st o ip u :
  match go_live_at o with
  | Some _ =>
      exists s,
        call get_message st (ScheduledForPublishLock o ip) u = Returns (PyStr s)
  | None =>
      exists attr,
        call get_message st (ScheduledForPublishLock o ip) u
        = Raises (AttributeError attr)
  end.
Proof.
  unfold go_live_at. run.
  destruct ip; destruct (scheduled_revision o) as [r | ];
    try (eexists; reflexivity);
    destruct (approved_go_live_at r); eexists; reflexivity.
Qed.

(** ** BaseLock: the placeholder methods *)

(** The abstract class answers [NotImplemented] and [None]; the three
    variants override both methods, so neither answer is ever theirs. *)
Lemma BaseLock_placeholders st l u :
  call BaseLock_for_user st l u = Returns PyNotImplemented
  /\ call BaseLock_get_message st l u = Returns PyNone.
Proof. split; reflexivity. Qed.

(** ** The methods on the sample objects *)

Example home_message_for_its_locker :
  call get_message Samples.lock_off (new_BasicLock Samples.home) Samples.alice
  = Returns (PyStr
      "<b>Page 'Home' was locked</b> by <b>you</b> on <b>07 Mar 2024 12:00</b>.").
Proof. vm_compute. reflexivity. Qed.

Example home_message_for_somebody_else :
  call get_message Samples.lock_off (new_BasicLock Samples.home) Samples.bob
  = Returns (PyStr
      "<b>Page 'Home' was locked</b> by <b>alice</b> on <b>07 Mar 2024 12:00</b>.").
Proof. vm_compute. reflexivity. Qed.

Example legacy_message_is_generic :
  call get_message Samples.lock_off (new_BasicLock Samples.legacy) Samples.bob
  = Returns (PyStr "<b>Page 'Old' is locked</b>.").
Proof. vm_compute. reflexivity. Qed.

Example legacy_message_for_anonymous :
  call get_message Samples.lock_off (new_BasicLock Samples.legacy)
    Samples.anonymous
  = Returns (PyStr "<b>Page 'Old' is locked</b> by <b>you</b>.").
Proof. vm_compute. reflexivity. Qed.

Example global_lock_applies_to_the_locker :
  call for_user Samples.lock_on (new_BasicLock Samples.home) Samples.alice
  = Returns (PyBool true).
Proof. vm_compute. reflexivity. Qed.

Example in_review_message_for_bob :
  call get_message Samples.lock_off
    (new_WorkflowLock Samples.in_review Samples.editors) Samples.bob
  = Returns (PyStr
      ("This page is awaiting <b>'Editors'</b> in the <b>'Publishing'</b> workflow."
       ++ " Only reviewers for this task can edit the page.")).
Proof. vm_compute. reflexivity. Qed.

Example in_review_message_for_alice :
  call get_message Samples.lock_off
    (new_WorkflowLock Samples.in_review Samples.editors) Samples.alice
  = Returns PyNone.
Proof. vm_compute. reflexivity. Qed.

Example strftime_of_an_early_year :
  strftime {| year := 999; month := 1; day := 2; hour := 3; minute := 4 |}
  = "02 Jan 999 03:04".
Proof. reflexivity. Qed.

Example escape_markup :
  escape "<a href='x'>R&D</a>" = "&lt;a href=&#x27;x&#x27;&gt;R&amp;D&lt;/a&gt;".
Proof. reflexivity. Qed.

(** ** BasicLock.for_user *)

(** C1: [BasicLock.for_user] returns [False] if and only if the global lock
    setting is off and the user's [pk] equals the object's [locked_by_id];
    in every other case it returns [True]. *)
Theorem BasicLock_for_user_false_iff st o ip u :
  (call for_user st (BasicLock o ip) u = Returns (PyBool false)
   <-> global_page_edit_lock st = false /\ pk u = locked_by_id o)
  /\ (call for_user st (BasicLock o ip) u = Returns (PyBool true)
      <-> ~ (global_page_edit_lock st = false /\ pk u = locked_by_id o)).
Proof.
  rewrite call_BasicLock_for_user.
  destruct (global_page_edit_lock st); cbn [orb].
  - split; split.
    + discriminate.
    + intros [H _]. discriminate H.
    + intros _ [H _]. discriminate H.
    + reflexivity.
  - destruct (decide (pk u = locked_by_id o)) as [Heq | Hne].
    + rewrite (bool_decide_eq_true_2 _ Heq). cbn [negb].
      split; split; auto.
      * discriminate.
      * intros H. exfalso. apply H. auto.
    + rewrite (bool_decide_eq_false_2 _ Hne). cbn [negb].
      split; split.
      * discriminate.
      * intros [_ H]. contradiction.
      * intros _ [_ H]. contradiction.
      * reflexivity.
Qed.

(** C7: [BasicLock.for_user] is a function of three things only: the value
    of the global lock setting, the object's [locked_by_id] and the user's
    [pk].  Two calls that agree on these return the same result, whatever
    else differs in the settings, the objects, the locks and the users. *)
Theorem BasicLock_for_user_deterministic st1 st2 o1 o2 ip1 ip2 u1 u2 :
  st1 !! GLOBAL_PAGE_EDIT_LOCK = st2 !! GLOBAL_PAGE_EDIT_LOCK ->
  locked_by_id o1 = locked_by_id o2 ->
  pk u1 = pk u2 ->
  call for_user st1 (BasicLock o1 ip1) u1
  = call for_user st2 (BasicLock o2 ip2) u2.
Proof.
  intros Hst Hid Hpk. rewrite !call_BasicLock_for_user.
  unfold global_page_edit_lock, getattr_default.
  rewrite Hst, Hid, Hpk. reflexivity.
Qed.

Lemma BasicLock_for_user_deterministic_witness :
  Samples.lock_off !! GLOBAL_PAGE_EDIT_LOCK
  = Samples.other_settings !! GLOBAL_PAGE_EDIT_LOCK
  /\ locked_by_id Samples.home = locked_by_id Samples.advert
  /\ pk Samples.alice = pk Samples.namesake
  /\ call for_user Samples.lock_off (BasicLock Samples.home true) Samples.alice
     = call for_user Samples.other_settings (BasicLock Samples.advert false)
         Samples.namesake.
Proof.
  assert (Hst : Samples.lock_off !! GLOBAL_PAGE_EDIT_LOCK
                = Samples.other_settings !! GLOBAL_PAGE_EDIT_LOCK)
    by (vm_compute; reflexivity).
  split; [ exact Hst | ].
  split; [ reflexivity | ].
  split; [ reflexivity | ].
  apply (BasicLock_for_user_deterministic
           Samples.lock_off Samples.other_settings Samples.home Samples.advert
           true false Samples.alice Samples.namesake Hst);
    reflexivity.
Defined.

(** C8: with the global lock setting off, an object whose [locked_by_id] is
    [None] and a user whose [pk] is [None], [BasicLock.for_user] returns
    [False]: [None != None] is false, so the lock does not apply. *)
Theorem BasicLock_for_user_none_none st o ip u :
  global_page_edit_lock st = false ->
  locked_by_id o = None ->
  pk u = None ->
  call for_user st (BasicLock o ip) u = Returns (PyBool false).
Proof.
  intros Hst Hid Hpk.
  rewrite call_BasicLock_for_user, Hst, Hid, Hpk. reflexivity.
Qed.

Lemma BasicLock_for_user_none_none_witness :
  global_page_edit_lock Samples.lock_off = false
  /\ locked_by_id Samples.legacy = None
  /\ pk Samples.anonymous = None
  /\ call for_user Samples.lock_off (new_BasicLock Samples.legacy)
       Samples.anonymous
     = Returns (PyBool false).
Proof.
  assert (Hst : global_page_edit_lock Samples.lock_off = false)
    by (vm_compute; reflexivity).
  split; [ exact Hst | ].
  split; [ reflexivity | ].
  split; [ reflexivity | ].
  apply (BasicLock_for_user_none_none
           Samples.lock_off Samples.legacy true Samples.anonymous Hst);
    reflexivity.
Defined.

(** ** ScheduledForPublishLock.for_user and WorkflowLock.for_user *)

(** C2: [ScheduledForPublishLock.for_user] returns [True] for every user,
    every object (with or without a scheduled revision, whatever its other
    fields) and every settings object. *)
Theorem ScheduledForPublishLock_for_user_true st o ip u :
  call for_user st (ScheduledForPublishLock o ip) u = Returns (PyBool true).
Proof. reflexivity. Qed.

(** C3: [WorkflowLock.for_user] returns exactly what the task's own rule
    [page_locked_for_user] answers on the lock's object and the user;
    neither the settings nor the lock's other attributes take part. *)
Theorem WorkflowLock_for_user_delegates st o ip t u :
  call for_user st (WorkflowLock o ip t) u
  = Returns (PyBool (page_locked_for_user t o u)).
Proof. apply call_WorkflowLock_for_user. Qed.

(** ** get_message *)

(** C10: with the global lock setting off, [BasicLock.get_message] is built
    from a "locked by you" template exactly for the users for whom
    [BasicLock.for_user] returns [False], and from a third-party template
    exactly for those for whom it returns [True]: message and decision rest
    on the same comparison of [user.pk] with [locked_by_id]. *)
Theorem BasicLock_wording_follows_for_user st o ip u :
  global_page_edit_lock st = false ->
  exists c,
    call BasicLock_message_call st (BasicLock o ip) u = Returns c
    /\ call get_message st (BasicLock o ip) u = Returns (PyStr (format_html c))
    /\ (by_you_wording c = true
        <-> call for_user st (BasicLock o ip) u = Returns (PyBool false))
    /\ (third_party_wording c = true
        <-> call for_user st (BasicLock o ip) u = Returns (PyBool true)).
Proof.
  intros Hst.
  destruct (BasicLock_message_call_wording st o ip u)
    as (c & Hc & Hyou & Hother & _).
  exists c. rewrite call_BasicLock_get_message, Hc.
  rewrite call_BasicLock_for_user, Hst, Hyou, Hother. cbn [orb].
  repeat split; try reflexivity;
    destruct (bool_decide (pk u = locked_by_id o)); cbn [negb];
    congruence.
Qed.

Lemma BasicLock_wording_follows_for_user_witness :
  global_page_edit_lock Samples.lock_off = false
  /\ exists c,
      call BasicLock_message_call Samples.lock_off
        (BasicLock Samples.home true) Samples.alice = Returns c
      /\ call get_message Samples.lock_off (BasicLock Samples.home true)
           Samples.alice
         = Returns (PyStr (format_html c))
      /\ (by_you_wording c = true
          <-> call for_user Samples.lock_off (BasicLock Samples.home true)
                Samples.alice
              = Returns (PyBool false))
      /\ (third_party_wording c = true
          <-> call for_user Samples.lock_off (BasicLock Samples.home true)
                Samples.alice
              = Returns (PyBool true)).
Proof.
  assert (Hst : global_page_edit_lock Samples.lock_off = false)
    by (vm_compute; reflexivity).
  split; [ exact Hst | ].
  exact (BasicLock_wording_follows_for_user
           Samples.lock_off Samples.home true Samples.alice Hst).
Defined.

(** C6: for every lock variant and every user, [for_user] returns a
    boolean, and whatever [get_message] returns is text or [None]; the only
    way [get_message] returns nothing is an [AttributeError] on a field the
    message needs and the object lacks. *)
Theorem lock_methods_result_kinds st l u :
  (exists b, call for_user st l u = Returns (PyBool b))
  /\ match call get_message st l u with
     | Returns v => is_text_or_none v = true
     | Raises (AttributeError _) => missing_for_message l = true
     end.
Proof.
  split.
  - destruct l as [o ip | o ip t | o ip].
    + rewrite call_BasicLock_for_user. eauto.
    + rewrite call_WorkflowLock_for_user. eauto.
    + exists true. reflexivity.
  - destruct l as [o ip | o ip t | o ip]; cbn [missing_for_message].
    + destruct (BasicLock_message_call_wording st o ip u) as (c & Hc & _).
      rewrite call_BasicLock_get_message, Hc. reflexivity.
    + pose proof (call_WorkflowLock_get_message st o ip t u) as H.
      destruct (page_locked_for_user t o u).
      * destruct (current_workflow_state o).
        -- destruct H as [s ->]. reflexivity.
        -- rewrite H. reflexivity.
      * rewrite H. reflexivity.
    + pose proof (call_ScheduledForPublishLock_get_message st o ip u) as H.
      destruct (go_live_at o).
      * destruct H as [s ->]. reflexivity.
      * destruct H as [attr ->]. reflexivity.
Qed.

(** C4, as the code has it.
    [BasicLock.get_message] never fails and always returns a message.  With
    [locked_at] [None] it returns the "is locked by you" message when
    [user.pk] equals [locked_by_id], and the generic "is locked" message
    otherwise; with [locked_by] [None] and [locked_at] set it returns the
    generic message to a user whose [pk] differs from [locked_by_id], and
    the "was locked by you on ..." message (which needs no [locked_by])
    to the one whose [pk] equals it.  None of these fallback messages is
    built with a field that is absent.
    [WorkflowLock.get_message] returns [None] when the lock does not apply,
    its message when the lock applies and the object has a workflow state,
    and raises [AttributeError] when the lock applies and there is none.
    [ScheduledForPublishLock.get_message] returns its message when the
    object has a scheduled revision with a go-live time, and raises
    [AttributeError] when the scheduled revision or its go-live time is
    absent. *)
Theorem get_message_with_absent_fields st l u :
  match l with
  | BasicLock o _ =>
      exists c,
        call BasicLock_message_call st l u = Returns c
        /\ call get_message st l u = Returns (PyStr (format_html c))
        /\ match locked_at o, locked_by o, bool_decide (pk u = locked_by_id o) with
           | None, _, true =>
               c = {| template := LOCKED_BY_YOU;
                      kwargs := [("page_title", admin_display_title o)] |}
           | None, _, false | Some _, None, false =>
               c = {| template := LOCKED_GENERIC;
                      kwargs := [("page_title", admin_display_title o)] |}
           | Some t, None, true =>
               c = {| template := LOCKED_BY_YOU_AT;
                      kwargs := [("page_title", admin_display_title o);
                                 ("datetime", strftime t)] |}
           | Some _, Some _, _ => True
           end
        /\ match locked_at o with
           | None => uses_kwarg "datetime" c = false
           | Some _ => True
           end
        /\ match locked_by o with
           | None => uses_kwarg "user" c = false
           | Some _ => True
           end
  | WorkflowLock o _ t =>
      match page_locked_for_user t o u, current_workflow_state o with
      | false, _ => call get_message st l u = Returns PyNone
      | true, Some ws =>
          call get_message st l u
          = Returns (PyStr (mark_safe
              ((if (length (all_tasks_with_status ws) =? 1)%nat
                then gettext AWAITING_MODERATION
                else format_html
                       {| template := gettext AWAITING_TASK;
                          kwargs := [("task_name", task_name t);
                                     ("workflow_name", workflow_name ws)] |})
               ++ " " ++ gettext ONLY_REVIEWERS)))
      | true, None =>
          call get_message st l u
          = Raises (AttributeError "all_tasks_with_status")
      end
  | ScheduledForPublishLock o is_page =>
      match scheduled_revision o with
      | None =>
          call get_message st l u
          = Raises (AttributeError
                      (if is_page then "approved_go_live_at" else "object_str"))
      | Some r =>
          match approved_go_live_at r with
          | None => call get_message st l u = Raises (AttributeError "strftime")
          | Some d =>
              call get_message st l u
              = Returns (PyStr
                  (if is_page then
                     format_html
                       {| template := gettext SCHEDULED_PAGE;
                          kwargs := [("page_title", admin_display_title o);
                                     ("datetime", strftime d)] |}
                   else
                     mark_safe (capfirst (format_html
                       {| template := gettext SCHEDULED_OBJECT;
                          kwargs := [("model_name", verbose_name o);
                                     ("title", object_str r);
                                     ("datetime", strftime d)] |}))))
          end
      end
  end.
Proof.
  destruct l as [o ip | o ip t | o ip].
  - destruct (BasicLock_message_call_wording st o ip u)
      as (c & Hc & _ & _ & Hat & Hby).
    exists c. rewrite call_BasicLock_get_message, Hc.
    split; [ reflexivity | ]. split; [ reflexivity | ].
    split; [ | split; assumption ].
    clear Hat Hby. revert Hc. run.
    rewrite (bool_decide_ext (locked_by_id o = pk u) (pk u = locked_by_id o))
      by (split; congruence).
    destruct (locked_at o), (locked_by o),
      (bool_decide (pk u = locked_by_id o));
      intros Hc; try exact I; injection Hc as <-; reflexivity.
  - run.
    destruct (page_locked_for_user t o u); [ | reflexivity ].
    destruct (current_workflow_state o) as [ws | ] eqn:Hws; [ | reflexivity ].
    destruct (length (all_tasks_with_status ws) =? 1)%nat; run.
    + reflexivity.
    + rewrite Hws. reflexivity.
  - run.
    destruct ip; destruct (scheduled_revision o) as [r | ];
      try reflexivity; destruct (approved_go_live_at r); reflexivity.
Qed.

(** C4 as stated fails: on a page with no scheduled revision,
    [ScheduledForPublishLock.get_message] raises [AttributeError]. *)
Lemma ScheduledForPublishLock_get_message_raises :
  ~ (scheduled_revision Samples.home = None ->
     returned (call get_message Samples.lock_off
                 (new_ScheduledForPublishLock Samples.home) Samples.bob)
     = true).
Proof.
  intros H. specialize (H eq_refl). vm_compute in H. discriminate H.
Qed.

(** C9, as the code has it: [WorkflowLock.get_message] returns [None]
    exactly when [WorkflowLock.for_user] is false; it returns a message
    exactly when [for_user] is true and the object has a current workflow
    state; when [for_user] is true and there is no workflow state it
    raises. *)
Theorem WorkflowLock_message_iff_applies st o ip t u :
  (call get_message st (WorkflowLock o ip t) u = Returns PyNone
   <-> call for_user st (WorkflowLock o ip t) u = Returns (PyBool false))
  /\ ((exists s, call get_message st (WorkflowLock o ip t) u = Returns (PyStr s))
      <-> call for_user st (WorkflowLock o ip t) u = Returns (PyBool true)
          /\ present (current_workflow_state o) = true)
  /\ ((exists e, call get_message st (WorkflowLock o ip t) u = Raises e)
      <-> call for_user st (WorkflowLock o ip t) u = Returns (PyBool true)
          /\ present (current_workflow_state o) = false).
Proof.
  pose proof (call_WorkflowLock_get_message st o ip t u) as H.
  rewrite call_WorkflowLock_for_user.
  destruct (page_locked_for_user t o u).
  - destruct (current_workflow_state o) as [ws | ]; cbn [present].
    + destruct H as [s Hs]. rewrite Hs. settle_cases.
    + rewrite H. settle_cases.
  - rewrite H. settle_cases.
Qed.

(** C9 as stated fails: the editors' task locks the page for bob, the page
    has no workflow state, and [get_message] raises instead of returning a
    message. *)
Lemma WorkflowLock_applies_without_message :
  ~ ((exists s,
        call get_message Samples.lock_off
          (new_WorkflowLock Samples.home Samples.editors) Samples.bob
        = Returns (PyStr s))
     <-> call for_user Samples.lock_off
           (new_WorkflowLock Samples.home Samples.editors) Samples.bob
         = Returns (PyBool true)).
Proof.
  intros [_ H]. destruct H as [s Hs]; [ reflexivity | ].
  vm_compute in Hs. discriminate Hs.
Qed.
